(** * Linux capability queries: the ABI decoder and the query facade

    A shallow embedding of the Go packages [capabilities] (capabilities.go)
    and [internal] (the CapabilityV1 / CapabilityV3 bit predicates), with the
    properties of the decoder and of the facade proved about it.

    Conventions.  Go's [int] and [uint] are the 64-bit ones of linux/amd64.
    A [uint32] is a [Z]; the only arithmetic the program does on one is a
    left shift of the constant 1 and a bitwise and, both written out below
    with their wrap-around.  The kernel is a parameter: a state type and a
    transition function standing for capget(2). *)

From Stdlib Require Import ZArith List String Bool Lia.
Import ListNotations.
Open Scope Z_scope.

(** ** Go's integer conversions and fixed-width operators *)
Module go.

Definition int_max : Z := 2 ^ 63 - 1.

  (** [uint(x)] for [x : int]: the same 64 bits read as unsigned. *)
Definition uint (x : Z) : Z := x mod 2 ^ 64.

  (** [int32(x)] for [x : int]: the low 32 bits read as signed. *)
Definition int32 (x : Z) : Z := (x + 2 ^ 31) mod 2 ^ 32 - 2 ^ 31.

  (** [x << s] at type [uint32] with an unsigned count [s]: the bits that
      leave the word are lost, and a count of 32 or more leaves nothing. *)
Definition shl32 (x s : Z) : Z :=
    if 32 <=? s then 0 else Z.shiftl x s mod 2 ^ 32.

  (** A Go array [[2]T] and the indexing [a[i]]; the program only ever
      indexes one with 0 or 1. *)
Definition array2 (T : Type) : Type := (T * T)%type.

Definition at2 {T : Type} (a : array2 T) (i : Z) : T :=
    if i =? 0 then fst a else snd a.

End go.

(** ** golang.org/x/sys/unix: the capget(2) structures and constants *)
Module unix.

Definition LINUX_CAPABILITY_VERSION_1 : Z := 0x19980330.
Definition LINUX_CAPABILITY_VERSION_2 : Z := 0x20071026.
Definition LINUX_CAPABILITY_VERSION_3 : Z := 0x20080522.

  (** [type CapUserHeader struct { Version uint32; Pid int32 }] *)
Record CapUserHeader : Type := mkHeader
    { Version : Z;
      Pid : Z }.

  (** [type CapUserData struct { Effective, Permitted, Inheritable uint32 }] *)
Record CapUserData : Type := mkData
    { Effective : Z;
      Permitted : Z;
      Inheritable : Z }.

Definition zeroHeader : CapUserHeader := mkHeader 0 0.
Definition zeroData : CapUserData := mkData 0 0 0.

Definition set_Version (h : CapUserHeader) (v : Z) : CapUserHeader :=
    mkHeader v (Pid h).

Definition set_Pid (h : CapUserHeader) (p : Z) : CapUserHeader :=
    mkHeader (Version h) p.

End unix.

(** ** Package internal: the two layouts and their bit predicates *)
Module CapabilityV1.

Record t : Type := mk
    { Header : unix.CapUserHeader;
      Data : unix.CapUserData }.

Definition zero : t := mk unix.zeroHeader unix.zeroData.

Definition IsEffectiveSet (v1 : t) (capability : Z) : bool :=
    negb (Z.land (go.shl32 1 (go.uint capability))
                 (unix.Effective (Data v1)) =? 0).

Definition IsPermittedSet (v1 : t) (capability : Z) : bool :=
    negb (Z.land (go.shl32 1 (go.uint capability))
                 (unix.Permitted (Data v1)) =? 0).

Definition IsInheritableSet (v1 : t) (capability : Z) : bool :=
    negb (Z.land (go.shl32 1 (go.uint capability))
                 (unix.Inheritable (Data v1)) =? 0).

End CapabilityV1.

Module CapabilityV3.

Record t : Type := mk
    { Header : unix.CapUserHeader;
      Datap : go.array2 unix.CapUserData;
      Bounds : go.array2 Z;
      Ambient : go.array2 Z }.

Definition zero : t :=
    mk unix.zeroHeader (unix.zeroData, unix.zeroData) (0, 0) (0, 0).

Definition IsEffectiveSet (v3 : t) (capability : Z) : bool :=
    let i := 0 in
    let bitIndex := capability in
    let '(i, bitIndex) :=
      if bitIndex >? 31 then (1, Z.rem bitIndex 32) else (i, bitIndex) in
    negb (Z.land (go.shl32 1 (go.uint bitIndex))
                 (unix.Effective (go.at2 (Datap v3) i)) =? 0).

Definition IsPermittedSet (v3 : t) (capability : Z) : bool :=
    let i := 0 in
    let bitIndex := capability in
    let '(i, bitIndex) :=
      if bitIndex >? 31 then (1, Z.rem bitIndex 32) else (i, bitIndex) in
    negb (Z.land (go.shl32 1 (go.uint bitIndex))
                 (unix.Permitted (go.at2 (Datap v3) i)) =? 0).

Definition IsInheritableSet (v3 : t) (capability : Z) : bool :=
    let i := 0 in
    let bitIndex := capability in
    let '(i, bitIndex) :=
      if bitIndex >? 31 then (1, Z.rem bitIndex 32) else (i, bitIndex) in
    negb (Z.land (go.shl32 1 (go.uint bitIndex))
                 (unix.Inheritable (go.at2 (Datap v3) i)) =? 0).

Definition IsBoundingSet (v3 : t) (capability : Z) : bool :=
    let i := 0 in
    let bitIndex := capability in
    let '(i, bitIndex) :=
      if bitIndex >? 31 then (1, Z.rem bitIndex 32) else (i, bitIndex) in
    negb (Z.land (go.shl32 1 (go.uint bitIndex))
                 (go.at2 (Bounds v3) i) =? 0).

Definition IsAmbientSet (v3 : t) (capability : Z) : bool :=
    let i := 0 in
    let bitIndex := capability in
    let '(i, bitIndex) :=
      if bitIndex >? 31 then (1, Z.rem bitIndex 32) else (i, bitIndex) in
    negb (Z.land (go.shl32 1 (go.uint bitIndex))
                 (go.at2 (Ambient v3) i) =? 0).

End CapabilityV3.

(** ** Package capabilities: the query facade *)
Module capabilities.

  (** [type CapabilitySet int] and its five named values. *)
Definition CapabilitySet : Type := Z.

Definition Effective : CapabilitySet := 0.
Definition Permitted : CapabilitySet := 1.
Definition Inheritable : CapabilitySet := 2.
Definition Bounding : CapabilitySet := 3.
Definition Ambient : CapabilitySet := 4.

Record Capabilities : Type := mk
    { v3 : CapabilityV3.t;
      v1 : CapabilityV1.t;
      Version : Z }.

Definition zero : Capabilities := mk CapabilityV3.zero CapabilityV1.zero 0.

Definition set_v1 (c : Capabilities) (x : CapabilityV1.t) : Capabilities :=
    mk (v3 c) x (Version c).

Definition set_v3 (c : Capabilities) (x : CapabilityV3.t) : Capabilities :=
    mk x (v1 c) (Version c).

Definition set_Version (c : Capabilities) (v : Z) : Capabilities :=
    mk (v3 c) (v1 c) v.

  (** Go's [error] values as the program makes them: an errno handed back
      by the syscall wrapper, or the result of [errors.New]. *)
Inductive error : Type :=
  | Errno (e : Z)
  | errors_New (msg : string).

  (** What one call of [unix.Capget(hdr, data)] leaves behind: the error it
      returns, the header as the kernel left it, and the data records the
      kernel copied out (none, one or two). *)
Record CapgetReply : Type := mkReply
    { r_err : option Z;
      r_hdr : unix.CapUserHeader;
      r_data : list unix.CapUserData }.

  (** The outcome of [Init]: it returns a pointer and an error, or panics. *)
Inductive InitResult : Type :=
  | InitReturn (c : option Capabilities) (err : option error)
  | InitPanic (msg : string).

  (** A call of one of the two query methods. *)
Inductive Call : Type :=
  | CallIsSet (pid capability : Z) (capSet : CapabilitySet)
  | CallisSetFor (pid capability : Z) (capSet : CapabilitySet).

Section Facade.

    (** The running kernel, as far as capget(2) shows it; [Capget k hdr nil]
        is [unix.Capget(&hdr, data)] where [nil] tells whether [data] is the
        nil pointer.  [os_Getpid] is the pid of the calling process. *)
Variable Kernel : Type.
Variable Capget :
      Kernel -> unix.CapUserHeader -> bool -> Kernel * CapgetReply.
Variable os_Getpid : Z.

Definition Init (k : Kernel) : Kernel * InitResult :=
      let header := unix.zeroHeader in
      let capability := zero in
      let '(k, r) := Capget k header true in
      let header := r_hdr r in
      match r_err r with
      | Some _ =>
          (k, InitReturn None
                (Some (errors_New "unable to probe capability version")))
      | None =>
          if unix.Version header =? unix.LINUX_CAPABILITY_VERSION_1 then
            let capability := set_Version capability 1 in
            let capability :=
              set_v1 capability
                (CapabilityV1.mk header (CapabilityV1.Data (v1 capability))) in
            (k, InitReturn (Some capability) None)
          else if unix.Version header =? unix.LINUX_CAPABILITY_VERSION_2 then
            let capability := set_Version capability 2 in
            let capability :=
              set_v3 capability
                (CapabilityV3.mk header
                   (CapabilityV3.Datap (v3 capability))
                   (CapabilityV3.Bounds (v3 capability))
                   (CapabilityV3.Ambient (v3 capability))) in
            (k, InitReturn (Some capability) None)
          else if unix.Version header =? unix.LINUX_CAPABILITY_VERSION_3 then
            let capability := set_Version capability 3 in
            let capability :=
              set_v3 capability
                (CapabilityV3.mk header
                   (CapabilityV3.Datap (v3 capability))
                   (CapabilityV3.Bounds (v3 capability))
                   (CapabilityV3.Ambient (v3 capability))) in
            (k, InitReturn (Some capability) None)
          else
            (k, InitPanic "Unsupported Linux capability version")
      end.

    (** The header [isSetFor] hands to the syscall on the V1 path and on the
        V2/V3 path: the instance's stored header with its two fields
        assigned. *)
Definition v1_header (c : Capabilities) (pid : Z) : unix.CapUserHeader :=
      unix.set_Pid
        (unix.set_Version (CapabilityV1.Header (v1 c))
           unix.LINUX_CAPABILITY_VERSION_1)
        (go.int32 pid).

Definition v3_header (c : Capabilities) (pid : Z) : unix.CapUserHeader :=
      let h := CapabilityV3.Header (v3 c) in
      let h :=
        if Version c =? 2 then
          unix.set_Version h unix.LINUX_CAPABILITY_VERSION_2
        else if Version c =? 3 then
          unix.set_Version h unix.LINUX_CAPABILITY_VERSION_3
        else h in
      unix.set_Pid h (go.int32 pid).

Definition isSetFor (k : Kernel) (c : Capabilities)
        (pid capability : Z) (capSet : CapabilitySet)
      : Kernel * Capabilities * (bool * option error) :=
      if (Version c <? 1) || (Version c >? 3) then
        (k, c, (false, Some (errors_New "invalid capability version")))
      else if Version c =? 1 then
        let '(k, r) := Capget k (v1_header c pid) false in
        let c :=
          set_v1 c
            (CapabilityV1.mk (r_hdr r)
               (nth 0 (r_data r) (CapabilityV1.Data (v1 c)))) in
        match r_err r with
        | Some e => (k, c, (false, Some (Errno e)))
        | None =>
            if capSet =? Effective then
              (k, c, (CapabilityV1.IsEffectiveSet (v1 c) capability, None))
            else if capSet =? Inheritable then
              (k, c, (CapabilityV1.IsInheritableSet (v1 c) capability, None))
            else if capSet =? Permitted then
              (k, c, (CapabilityV1.IsPermittedSet (v1 c) capability, None))
            else
              (k, c,
               (false,
                Some (errors_New "invalid capability set for capability v1")))
        end
      else
        let '(k, r) := Capget k (v3_header c pid) false in
        let c :=
          set_v3 c
            (CapabilityV3.mk (r_hdr r)
               (nth 0 (r_data r) (fst (CapabilityV3.Datap (v3 c))),
                nth 1 (r_data r) (snd (CapabilityV3.Datap (v3 c))))
               (CapabilityV3.Bounds (v3 c))
               (CapabilityV3.Ambient (v3 c))) in
        match r_err r with
        | Some e => (k, c, (false, Some (Errno e)))
        | None =>
            if capSet =? Effective then
              (k, c, (CapabilityV3.IsEffectiveSet (v3 c) capability, None))
            else if capSet =? Permitted then
              (k, c, (CapabilityV3.IsPermittedSet (v3 c) capability, None))
            else if capSet =? Inheritable then
              (k, c, (CapabilityV3.IsInheritableSet (v3 c) capability, None))
            else if capSet =? Bounding then
              (k, c, (CapabilityV3.IsBoundingSet (v3 c) capability, None))
            else if capSet =? Ambient then
              (k, c, (CapabilityV3.IsAmbientSet (v3 c) capability, None))
            else
              (k, c,
               (false,
                Some (errors_New
                        "invalid capability set for capability v2 or v3")))
        end.

Definition IsSet (k : Kernel) (c : Capabilities)
        (pid capability : Z) (capSet : CapabilitySet)
      : Kernel * Capabilities * (bool * option error) :=
      isSetFor k c os_Getpid capability capSet.

Definition call (k : Kernel) (c : Capabilities) (q : Call)
      : Kernel * Capabilities * (bool * option error) :=
      match q with
      | CallIsSet pid capability capSet => IsSet k c pid capability capSet
      | CallisSetFor pid capability capSet =>
          isSetFor k c pid capability capSet
      end.

    (** A sequence of queries on one instance, each seeing the kernel and the
        instance as the one before left them. *)
Fixpoint calls (k : Kernel) (c : Capabilities) (qs : list Call)
      : Kernel * Capabilities * list (bool * option error) :=
      match qs with
      | [] => (k, c, [])
      | q :: qs =>
          let '(k, c, res) := call k c q in
          let '(k, c, rest) := calls k c qs in
          (k, c, res :: rest)
      end.

End Facade.

End capabilities.

(** ** A small concrete kernel, for running the facade

    The kernel reports one ABI magic number when probed and keeps the
    headers it was handed, latest first.  It knows two processes: the caller
    (pid [self], also reached as pid 0), which holds no capability, and
    pid 1, which holds capabilities 0, 12 and 40.  Any other pid is ESRCH. *)
Module sim.

Record Kernel : Type := mk
  { abi : Z;
    seen : list unix.CapUserHeader }.

Definition boot (magic : Z) : Kernel := mk magic [].

Definition self : Z := 4242.
Definition ESRCH : Z := 3.

Definition caps_of (pid : Z) : option (list unix.CapUserData) :=
  if (pid =? 0) || (pid =? self) then
    Some [unix.zeroData; unix.zeroData]
  else if pid =? 1 then
    Some [unix.mkData 0x1001 0x1001 0; unix.mkData 0x100 0x100 0]
  else None.

Definition Capget (k : Kernel) (hdr : unix.CapUserHeader) (nil : bool)
  : Kernel * capabilities.CapgetReply :=
  let k' := mk (abi k) (hdr :: seen k) in
  if nil then
    (k', capabilities.mkReply None (unix.set_Version hdr (abi k)) [])
  else
    match caps_of (unix.Pid hdr) with
    | Some d =>
        (k', capabilities.mkReply None hdr
               (if unix.Version hdr =? unix.LINUX_CAPABILITY_VERSION_1
                then firstn 1 d else d))
    | None => (k', capabilities.mkReply (Some ESRCH) hdr [])
    end.

(** The instance [Init] returns on this kernel, or the zero instance when
    it returns none. *)
Definition instance (magic : Z) : capabilities.Capabilities :=
  match snd (capabilities.Init Kernel Capget (boot magic)) with
  | capabilities.InitReturn (Some c) _ => c
  | _ => capabilities.zero
  end.

End sim.

(** * Properties *)

(** ** Shifts, conversions and the bit test *)

Lemma uint_id (n : Z) : 0 <= n <= go.int_max -> go.uint n = n.
Proof.
  unfold go.uint, go.int_max. intros Hn.
  apply Z.mod_small. lia.
Qed.

Lemma shl32_wrap (x s : Z) :
  0 <= s -> go.shl32 x s = Z.shiftl x s mod 2 ^ 32.
Proof.
  intros Hs. unfold go.shl32.
  destruct (Z.leb_spec 32 s) as [Hge | Hlt]; [ | reflexivity ].
  rewrite Z.shiftl_mul_pow2 by lia.
  replace s with (32 + (s - 32)) by lia.
  rewrite Z.pow_add_r by lia.
  replace (x * (2 ^ 32 * 2 ^ (s - 32))) with (x * 2 ^ (s - 32) * 2 ^ 32)
    by ring.
  symmetry. apply Z.mod_mul. lia.
Qed.

Lemma shl32_one (b : Z) : 0 <= b < 32 -> go.shl32 1 b = 2 ^ b.
Proof.
  intros Hb. unfold go.shl32.
  destruct (Z.leb_spec 32 b) as [Hge | Hlt]; [ lia | ].
  rewrite Z.shiftl_1_l. apply Z.mod_small.
  split; [ apply Z.pow_nonneg; lia | apply Z.pow_lt_mono_r; lia ].
Qed.

Lemma shl32_out (x s : Z) : 32 <= s -> go.shl32 x s = 0.
Proof.
  intros Hs. unfold go.shl32.
  destruct (Z.leb_spec 32 s); [ reflexivity | lia ].
Qed.

Lemma land_pow2 (b w : Z) :
  0 <= b -> Z.land (2 ^ b) w = if Z.testbit w b then 2 ^ b else 0.
Proof.
  intros Hb. apply Z.bits_inj'. intros i Hi.
  rewrite Z.land_spec, Z.pow2_bits_eqb by assumption.
  destruct (Z.eqb_spec b i) as [-> | Hne].
  - destruct (Z.testbit w i) eqn:Hw; simpl.
    + rewrite Z.pow2_bits_eqb, Z.eqb_refl by assumption. reflexivity.
    + rewrite Z.bits_0. reflexivity.
  - simpl. destruct (Z.testbit w b).
    + rewrite Z.pow2_bits_eqb by assumption.
      symmetry. apply Z.eqb_neq. assumption.
    + rewrite Z.bits_0. reflexivity.
Qed.

(** The test [(1 << b) & w != 0] of the source reads bit [b] of [w]. *)
Lemma bit_test (b w : Z) :
  0 <= b < 32 ->
  negb (Z.land (go.shl32 1 b) w =? 0) = Z.testbit w b.
Proof.
  intros Hb. rewrite shl32_one, land_pow2 by lia.
  destruct (Z.testbit w b); [ | reflexivity ].
  assert (0 < 2 ^ b) by (apply Z.pow_pos_nonneg; lia).
  destruct (Z.eqb_spec (2 ^ b) 0); [ lia | reflexivity ].
Qed.

(** With a count of 32 or more the mask is 0 and the test fails. *)
Lemma bit_test_out (s w : Z) :
  32 <= s -> negb (Z.land (go.shl32 1 s) w =? 0) = false.
Proof.
  intros Hs. rewrite shl32_out by assumption.
  rewrite Z.land_0_l. reflexivity.
Qed.

(** ** The V1 layout *)

Ltac v1_unfold :=
  unfold CapabilityV1.IsEffectiveSet, CapabilityV1.IsPermittedSet,
    CapabilityV1.IsInheritableSet.

(** C3.  For a capability index 0..31 each V1 predicate is the test of bit
    [n] of the single word of its set kind; with the word 0b101 the
    predicate holds at index 0 and at index 2 and at no other index of
    0..31. *)
Theorem V1_predicates_test_bit_n :
  (forall (v1 : CapabilityV1.t) (n : Z),
      0 <= n <= 31 ->
      CapabilityV1.IsEffectiveSet v1 n
        = Z.testbit (unix.Effective (CapabilityV1.Data v1)) n /\
      CapabilityV1.IsPermittedSet v1 n
        = Z.testbit (unix.Permitted (CapabilityV1.Data v1)) n /\
      CapabilityV1.IsInheritableSet v1 n
        = Z.testbit (unix.Inheritable (CapabilityV1.Data v1)) n) /\
  (forall (h : unix.CapUserHeader) (n : Z),
      0 <= n <= 31 ->
      let v1 := CapabilityV1.mk h (unix.mkData 5 5 5) in
      CapabilityV1.IsEffectiveSet v1 n = ((n =? 0) || (n =? 2)) /\
      CapabilityV1.IsPermittedSet v1 n = ((n =? 0) || (n =? 2)) /\
      CapabilityV1.IsInheritableSet v1 n = ((n =? 0) || (n =? 2))).
Proof.
  assert (general : forall (v1 : CapabilityV1.t) (n : Z),
      0 <= n <= 31 ->
      CapabilityV1.IsEffectiveSet v1 n
        = Z.testbit (unix.Effective (CapabilityV1.Data v1)) n /\
      CapabilityV1.IsPermittedSet v1 n
        = Z.testbit (unix.Permitted (CapabilityV1.Data v1)) n /\
      CapabilityV1.IsInheritableSet v1 n
        = Z.testbit (unix.Inheritable (CapabilityV1.Data v1)) n).
  { intros v1 n Hn. v1_unfold.
    rewrite uint_id by (unfold go.int_max; lia).
    repeat split; apply bit_test; lia. }
  split; [ exact general | ].
  intros h n Hn v1.
  assert (five : Z.testbit 5 n = ((n =? 0) || (n =? 2))).
  { assert (Hcases : n = 0 \/ n = 1 \/ n = 2 \/ 3 <= n) by lia.
    destruct Hcases as [-> | [-> | [-> | Hbig]]]; try reflexivity.
    destruct (Z.eqb_spec n 0); [ lia | ].
    destruct (Z.eqb_spec n 2); [ lia | ].
    simpl. apply Z.bits_above_log2; [ lia | ].
    change (Z.log2 5) with 2. lia. }
  destruct (general v1 n Hn) as (He & Hp & Hi).
  rewrite He, Hp, Hi. subst v1. simpl. auto.
Qed.

Lemma V1_predicates_test_bit_n_witness :
  0 <= 2 <= 31 /\
  CapabilityV1.IsPermittedSet
    (CapabilityV1.mk unix.zeroHeader (unix.mkData 0 4 0)) 2 = true.
Proof.
  split; [ lia | ].
  destruct (proj1 V1_predicates_test_bit_n
              (CapabilityV1.mk unix.zeroHeader (unix.mkData 0 4 0)) 2)
    as (_ & Hp & _); [ lia | ].
  rewrite Hp. reflexivity.
Defined.

(** C9.  For a capability index of 32 or more (an [int], so at most
    [go.int_max]) each V1 predicate is false, whatever the snapshot: the
    mask [1 << n] is 0. *)
Theorem V1_predicates_false_from_32 (v1 : CapabilityV1.t) (n : Z) :
  32 <= n <= go.int_max ->
  CapabilityV1.IsEffectiveSet v1 n = false /\
  CapabilityV1.IsPermittedSet v1 n = false /\
  CapabilityV1.IsInheritableSet v1 n = false.
Proof.
  intros Hn. v1_unfold.
  rewrite uint_id by lia.
  repeat split; apply bit_test_out; lia.
Qed.

Lemma V1_predicates_false_from_32_witness :
  32 <= 32 <= go.int_max /\
  CapabilityV1.IsEffectiveSet
    (CapabilityV1.mk unix.zeroHeader
       (unix.mkData 0xFFFFFFFF 0xFFFFFFFF 0xFFFFFFFF)) 32 = false.
Proof.
  split; [ unfold go.int_max; lia | ].
  apply (V1_predicates_false_from_32
           (CapabilityV1.mk unix.zeroHeader
              (unix.mkData 0xFFFFFFFF 0xFFFFFFFF 0xFFFFFFFF)) 32).
  unfold go.int_max; lia.
Defined.

(** ** The V3 layout *)

Ltac v3_unfold :=
  unfold CapabilityV3.IsEffectiveSet, CapabilityV3.IsPermittedSet,
    CapabilityV3.IsInheritableSet, CapabilityV3.IsBoundingSet,
    CapabilityV3.IsAmbientSet.

(** Indices up to 31 are tested in word 0, at the bit of the same number. *)
Lemma V3_low (v3 : CapabilityV3.t) (n : Z) :
  0 <= n <= 31 ->
  CapabilityV3.IsEffectiveSet v3 n
    = Z.testbit (unix.Effective (fst (CapabilityV3.Datap v3))) n /\
  CapabilityV3.IsPermittedSet v3 n
    = Z.testbit (unix.Permitted (fst (CapabilityV3.Datap v3))) n /\
  CapabilityV3.IsInheritableSet v3 n
    = Z.testbit (unix.Inheritable (fst (CapabilityV3.Datap v3))) n /\
  CapabilityV3.IsBoundingSet v3 n
    = Z.testbit (fst (CapabilityV3.Bounds v3)) n /\
  CapabilityV3.IsAmbientSet v3 n
    = Z.testbit (fst (CapabilityV3.Ambient v3)) n.
Proof.
  intros Hn. v3_unfold.
  destruct (Z.gtb_spec n 31) as [Hgt | Hle]; [ lia | ].
  rewrite uint_id by (unfold go.int_max; lia).
  unfold go.at2; simpl.
  repeat split; apply bit_test; lia.
Qed.

(** Indices from 32 on are tested in word 1, at bit [n mod 32]. *)
Lemma V3_high (v3 : CapabilityV3.t) (n : Z) :
  32 <= n <= go.int_max ->
  CapabilityV3.IsEffectiveSet v3 n
    = Z.testbit (unix.Effective (snd (CapabilityV3.Datap v3))) (n mod 32) /\
  CapabilityV3.IsPermittedSet v3 n
    = Z.testbit (unix.Permitted (snd (CapabilityV3.Datap v3))) (n mod 32) /\
  CapabilityV3.IsInheritableSet v3 n
    = Z.testbit (unix.Inheritable (snd (CapabilityV3.Datap v3))) (n mod 32) /\
  CapabilityV3.IsBoundingSet v3 n
    = Z.testbit (snd (CapabilityV3.Bounds v3)) (n mod 32) /\
  CapabilityV3.IsAmbientSet v3 n
    = Z.testbit (snd (CapabilityV3.Ambient v3)) (n mod 32).
Proof.
  intros Hn. v3_unfold.
  destruct (Z.gtb_spec n 31) as [Hgt | Hle]; [ | lia ].
  rewrite Z.rem_mod_nonneg by lia.
  assert (Hb : 0 <= n mod 32 < 32) by (apply Z.mod_pos_bound; lia).
  rewrite uint_id by (unfold go.int_max; lia).
  unfold go.at2; simpl.
  repeat split; apply bit_test; lia.
Qed.

(** C2.  For a capability index 0..63 each V3 predicate is the test of bit
    [n mod 32] of word 0 (index up to 31) or word 1 (index above 31) of the
    two-word array of its set kind.  Index 32 is bit 0 of the second word,
    index 63 is bit 31 of the second word, index 31 is bit 31 of the first
    word. *)
Theorem V3_predicates_split_index (v3 : CapabilityV3.t) :
  (forall n : Z,
      0 <= n <= 63 ->
      let i := if n >? 31 then 1 else 0 in
      CapabilityV3.IsEffectiveSet v3 n
        = Z.testbit (unix.Effective (go.at2 (CapabilityV3.Datap v3) i))
            (n mod 32) /\
      CapabilityV3.IsPermittedSet v3 n
        = Z.testbit (unix.Permitted (go.at2 (CapabilityV3.Datap v3) i))
            (n mod 32) /\
      CapabilityV3.IsInheritableSet v3 n
        = Z.testbit (unix.Inheritable (go.at2 (CapabilityV3.Datap v3) i))
            (n mod 32) /\
      CapabilityV3.IsBoundingSet v3 n
        = Z.testbit (go.at2 (CapabilityV3.Bounds v3) i) (n mod 32) /\
      CapabilityV3.IsAmbientSet v3 n
        = Z.testbit (go.at2 (CapabilityV3.Ambient v3) i) (n mod 32)) /\
  (CapabilityV3.IsEffectiveSet v3 32
     = Z.testbit (unix.Effective (snd (CapabilityV3.Datap v3))) 0 /\
   CapabilityV3.IsPermittedSet v3 32
     = Z.testbit (unix.Permitted (snd (CapabilityV3.Datap v3))) 0 /\
   CapabilityV3.IsInheritableSet v3 32
     = Z.testbit (unix.Inheritable (snd (CapabilityV3.Datap v3))) 0 /\
   CapabilityV3.IsBoundingSet v3 32
     = Z.testbit (snd (CapabilityV3.Bounds v3)) 0 /\
   CapabilityV3.IsAmbientSet v3 32
     = Z.testbit (snd (CapabilityV3.Ambient v3)) 0) /\
  (CapabilityV3.IsEffectiveSet v3 63
     = Z.testbit (unix.Effective (snd (CapabilityV3.Datap v3))) 31 /\
   CapabilityV3.IsPermittedSet v3 63
     = Z.testbit (unix.Permitted (snd (CapabilityV3.Datap v3))) 31 /\
   CapabilityV3.IsInheritableSet v3 63
     = Z.testbit (unix.Inheritable (snd (CapabilityV3.Datap v3))) 31 /\
   CapabilityV3.IsBoundingSet v3 63
     = Z.testbit (snd (CapabilityV3.Bounds v3)) 31 /\
   CapabilityV3.IsAmbientSet v3 63
     = Z.testbit (snd (CapabilityV3.Ambient v3)) 31) /\
  (CapabilityV3.IsEffectiveSet v3 31
     = Z.testbit (unix.Effective (fst (CapabilityV3.Datap v3))) 31 /\
   CapabilityV3.IsPermittedSet v3 31
     = Z.testbit (unix.Permitted (fst (CapabilityV3.Datap v3))) 31 /\
   CapabilityV3.IsInheritableSet v3 31
     = Z.testbit (unix.Inheritable (fst (CapabilityV3.Datap v3))) 31 /\
   CapabilityV3.IsBoundingSet v3 31
     = Z.testbit (fst (CapabilityV3.Bounds v3)) 31 /\
   CapabilityV3.IsAmbientSet v3 31
     = Z.testbit (fst (CapabilityV3.Ambient v3)) 31).
Proof.
  split; [ | split; [ | split ] ].
  - intros n Hn i. subst i.
    destruct (Z.gtb_spec n 31) as [Hgt | Hle]; unfold go.at2; simpl.
    + apply V3_high. unfold go.int_max. lia.
    + rewrite (Z.mod_small n 32) by lia. apply V3_low. lia.
  - apply (V3_high v3 32). unfold go.int_max. lia.
  - apply (V3_high v3 63). unfold go.int_max. lia.
  - apply (V3_low v3 31). lia.
Qed.

Lemma V3_predicates_split_index_witness :
  0 <= 40 <= 63 /\
  CapabilityV3.IsBoundingSet
    (CapabilityV3.mk unix.zeroHeader (unix.zeroData, unix.zeroData)
       (0, 0x100) (0, 0)) 40 = true.
Proof.
  split; [ lia | ].
  destruct (proj1 (V3_predicates_split_index
                     (CapabilityV3.mk unix.zeroHeader
                        (unix.zeroData, unix.zeroData) (0, 0x100) (0, 0)))
              40) as (_ & _ & _ & Hb & _); [ lia | ].
  rewrite Hb. reflexivity.
Defined.

(** C7.  If both words of a set's array are zero, the predicate of that set
    is false at every capability index 0..63. *)
Theorem V3_zero_words_never_set (v3 : CapabilityV3.t) (n : Z) :
  0 <= n <= 63 ->
  (unix.Effective (fst (CapabilityV3.Datap v3)) = 0 ->
   unix.Effective (snd (CapabilityV3.Datap v3)) = 0 ->
   CapabilityV3.IsEffectiveSet v3 n = false) /\
  (unix.Permitted (fst (CapabilityV3.Datap v3)) = 0 ->
   unix.Permitted (snd (CapabilityV3.Datap v3)) = 0 ->
   CapabilityV3.IsPermittedSet v3 n = false) /\
  (unix.Inheritable (fst (CapabilityV3.Datap v3)) = 0 ->
   unix.Inheritable (snd (CapabilityV3.Datap v3)) = 0 ->
   CapabilityV3.IsInheritableSet v3 n = false) /\
  (fst (CapabilityV3.Bounds v3) = 0 ->
   snd (CapabilityV3.Bounds v3) = 0 ->
   CapabilityV3.IsBoundingSet v3 n = false) /\
  (fst (CapabilityV3.Ambient v3) = 0 ->
   snd (CapabilityV3.Ambient v3) = 0 ->
   CapabilityV3.IsAmbientSet v3 n = false).
Proof.
  intros Hn.
  assert (Hcase : n <= 31 \/ 32 <= n) by lia.
  destruct Hcase as [Hlo | Hhi].
  - destruct (V3_low v3 n) as (He & Hp & Hi & Hb & Ha); [ lia | ].
    rewrite He, Hp, Hi, Hb, Ha.
    repeat split; intros -> _; apply Z.bits_0.
  - destruct (V3_high v3 n) as (He & Hp & Hi & Hb & Ha);
      [ unfold go.int_max; lia | ].
    rewrite He, Hp, Hi, Hb, Ha.
    repeat split; intros _ ->; apply Z.bits_0.
Qed.

Lemma V3_zero_words_never_set_witness :
  0 <= 63 <= 63 /\
  CapabilityV3.IsAmbientSet
    (CapabilityV3.mk unix.zeroHeader
       (unix.mkData 7 7 7, unix.mkData 7 7 7) (9, 9) (0, 0)) 63 = false.
Proof.
  split; [ lia | ].
  destruct (V3_zero_words_never_set
              (CapabilityV3.mk unix.zeroHeader
                 (unix.mkData 7 7 7, unix.mkData 7 7 7) (9, 9) (0, 0)) 63)
    as (_ & _ & _ & _ & Ha); [ lia | ].
  apply Ha; reflexivity.
Defined.

(** C10.  For a capability index of 32 or more (an [int], so at most
    [go.int_max]), 64 and beyond included, each V3 predicate is the test of bit [n mod 32] of word 1; from 64 on it
    gives what it gives at index [32 + n mod 32], so index 64 is answered
    as index 32. *)
Theorem V3_predicates_wrap_from_64 (v3 : CapabilityV3.t) (n : Z) :
  32 <= n <= go.int_max ->
  (CapabilityV3.IsEffectiveSet v3 n
     = Z.testbit (unix.Effective (snd (CapabilityV3.Datap v3))) (n mod 32) /\
   CapabilityV3.IsPermittedSet v3 n
     = Z.testbit (unix.Permitted (snd (CapabilityV3.Datap v3))) (n mod 32) /\
   CapabilityV3.IsInheritableSet v3 n
     = Z.testbit (unix.Inheritable (snd (CapabilityV3.Datap v3)))
         (n mod 32) /\
   CapabilityV3.IsBoundingSet v3 n
     = Z.testbit (snd (CapabilityV3.Bounds v3)) (n mod 32) /\
   CapabilityV3.IsAmbientSet v3 n
     = Z.testbit (snd (CapabilityV3.Ambient v3)) (n mod 32)) /\
  (64 <= n ->
   CapabilityV3.IsEffectiveSet v3 n
     = CapabilityV3.IsEffectiveSet v3 (32 + n mod 32) /\
   CapabilityV3.IsPermittedSet v3 n
     = CapabilityV3.IsPermittedSet v3 (32 + n mod 32) /\
   CapabilityV3.IsInheritableSet v3 n
     = CapabilityV3.IsInheritableSet v3 (32 + n mod 32) /\
   CapabilityV3.IsBoundingSet v3 n
     = CapabilityV3.IsBoundingSet v3 (32 + n mod 32) /\
   CapabilityV3.IsAmbientSet v3 n
     = CapabilityV3.IsAmbientSet v3 (32 + n mod 32)) /\
  (CapabilityV3.IsEffectiveSet v3 64 = CapabilityV3.IsEffectiveSet v3 32 /\
   CapabilityV3.IsPermittedSet v3 64 = CapabilityV3.IsPermittedSet v3 32 /\
   CapabilityV3.IsInheritableSet v3 64
     = CapabilityV3.IsInheritableSet v3 32 /\
   CapabilityV3.IsBoundingSet v3 64 = CapabilityV3.IsBoundingSet v3 32 /\
   CapabilityV3.IsAmbientSet v3 64 = CapabilityV3.IsAmbientSet v3 32).
Proof.
  intros Hn.
  assert (Hb : 0 <= n mod 32 < 32) by (apply Z.mod_pos_bound; lia).
  assert (wrap : forall m : Z,
             32 <= m <= go.int_max ->
             CapabilityV3.IsEffectiveSet v3 m
               = CapabilityV3.IsEffectiveSet v3 (32 + m mod 32) /\
             CapabilityV3.IsPermittedSet v3 m
               = CapabilityV3.IsPermittedSet v3 (32 + m mod 32) /\
             CapabilityV3.IsInheritableSet v3 m
               = CapabilityV3.IsInheritableSet v3 (32 + m mod 32) /\
             CapabilityV3.IsBoundingSet v3 m
               = CapabilityV3.IsBoundingSet v3 (32 + m mod 32) /\
             CapabilityV3.IsAmbientSet v3 m
               = CapabilityV3.IsAmbientSet v3 (32 + m mod 32)).
  { intros m Hm.
    assert (Hmb : 0 <= m mod 32 < 32) by (apply Z.mod_pos_bound; lia).
    destruct (V3_high v3 m Hm) as (He & Hp & Hi & Hbo & Ha).
    destruct (V3_high v3 (32 + m mod 32)) as (He' & Hp' & Hi' & Hbo' & Ha');
      [ unfold go.int_max; lia | ].
    replace ((32 + m mod 32) mod 32) with (m mod 32) in *.
    - rewrite He, Hp, Hi, Hbo, Ha, He', Hp', Hi', Hbo', Ha'. auto.
    - rewrite Z.add_mod, Z.mod_same, Z.add_0_l, !Z.mod_mod by lia.
      reflexivity. }
  split; [ apply V3_high; assumption | split ].
  - intros _. apply wrap. assumption.
  - apply (wrap 64). unfold go.int_max. lia.
Qed.

Lemma V3_predicates_wrap_from_64_witness :
  32 <= 72 <= go.int_max /\
  CapabilityV3.IsBoundingSet
    (CapabilityV3.mk unix.zeroHeader (unix.zeroData, unix.zeroData)
       (0, 0x100) (0, 0)) 72 = true.
Proof.
  split; [ unfold go.int_max; lia | ].
  destruct (V3_predicates_wrap_from_64
              (CapabilityV3.mk unix.zeroHeader
                 (unix.zeroData, unix.zeroData) (0, 0x100) (0, 0)) 72)
    as ((_ & _ & _ & Hb & _) & _); [ unfold go.int_max; lia | ].
  rewrite Hb. reflexivity.
Defined.

(** ** The facade, on any kernel *)

Ltac split_step :=
  match goal with
  | |- context [let '(_, _) := ?x in _] => destruct x eqn:?
  | |- context [match ?x with Some _ => _ | None => _ end] => destruct x eqn:?
  | |- context [if ?b then _ else _] => destruct b eqn:?
  end.

Ltac split_all := repeat (split_step; simpl).

Section FacadeProperties.

Variable Kernel : Type.
Variable Capget :
  Kernel -> unix.CapUserHeader -> bool -> Kernel * capabilities.CapgetReply.
Variable os_Getpid : Z.

Local Abbreviation Init := (capabilities.Init Kernel Capget).
Local Abbreviation isSetFor := (capabilities.isSetFor Kernel Capget).
Local Abbreviation IsSet := (capabilities.IsSet Kernel Capget os_Getpid).
Local Abbreviation call := (capabilities.call Kernel Capget os_Getpid).
Local Abbreviation calls := (capabilities.calls Kernel Capget os_Getpid).

Lemma isSetFor_keeps_Version (k : Kernel) (c : capabilities.Capabilities)
    (pid n : Z) (s : capabilities.CapabilitySet) :
  capabilities.Version (snd (fst (isSetFor k c pid n s)))
    = capabilities.Version c.
Proof.
  unfold capabilities.isSetFor. split_all; reflexivity.
Qed.

Lemma call_keeps_Version (k : Kernel) (c : capabilities.Capabilities)
    (q : capabilities.Call) :
  capabilities.Version (snd (fst (call k c q))) = capabilities.Version c.
Proof.
  destruct q; simpl; unfold capabilities.IsSet;
    apply isSetFor_keeps_Version.
Qed.

Lemma calls_keep_Version (qs : list capabilities.Call) :
  forall (k : Kernel) (c : capabilities.Capabilities),
    capabilities.Version (snd (fst (calls k c qs))) = capabilities.Version c.
Proof.
  induction qs as [ | q qs IH]; intros k c; simpl.
  - reflexivity.
  - pose proof (call_keeps_Version k c q) as Hq.
    destruct (call k c q) as [[k1 c1] res]; simpl in Hq.
    pose proof (IH k1 c1) as Hqs.
    destruct (calls k1 c1 qs) as [[k2 c2] rest]; simpl in *.
    congruence.
Qed.

Lemma Init_Version_known (k : Kernel) (c : capabilities.Capabilities)
    (err : option capabilities.error) :
  snd (Init k) = capabilities.InitReturn (Some c) err ->
  capabilities.Version c = 1 \/ capabilities.Version c = 2 \/
  capabilities.Version c = 3.
Proof.
  unfold capabilities.Init.
  destruct (Capget k unix.zeroHeader true) as [k0 r].
  destruct (capabilities.r_err r); simpl; [ discriminate | ].
  repeat (split_step; simpl); intros H; inversion H; subst; simpl; auto.
Qed.

(** C8.  The instance a successful [Init] returns has Version 1, 2 or 3, and
    after any sequence of [IsSet] and [isSetFor] calls on it, whatever each
    of them returns and from whatever kernel state, its Version is still
    that value. *)
Theorem Version_fixed_at_Init (k : Kernel) (c : capabilities.Capabilities)
    (err : option capabilities.error) :
  snd (Init k) = capabilities.InitReturn (Some c) err ->
  (capabilities.Version c = 1 \/ capabilities.Version c = 2 \/
   capabilities.Version c = 3) /\
  (forall (qs : list capabilities.Call) (k1 : Kernel),
      capabilities.Version (snd (fst (calls k1 c qs)))
        = capabilities.Version c).
Proof.
  intros HInit. split.
  - exact (Init_Version_known k c err HInit).
  - intros qs k1. apply calls_keep_Version.
Qed.

(** C6.  Whenever a query, [IsSet] or [isSetFor], returns a non-nil error,
    its boolean is false, whatever the kernel did. *)
Theorem error_comes_with_false (k : Kernel) (c : capabilities.Capabilities)
    (q : capabilities.Call) :
  snd (snd (call k c q)) <> None -> fst (snd (call k c q)) = false.
Proof.
  assert (H : forall pid n s,
             snd (snd (isSetFor k c pid n s)) <> None ->
             fst (snd (isSetFor k c pid n s)) = false).
  { intros pid n s. unfold capabilities.isSetFor.
    split_all; intros H; solve [ reflexivity | contradiction H; reflexivity ]. }
  destruct q as [pid n s | pid n s]; simpl; unfold capabilities.IsSet;
    apply H.
Qed.

(** C4, as the code has it.  On an instance of Version 1 a query for
    Bounding or Ambient returns false with an error, never false with nil:
    the syscall's error when the syscall fails, and the error
    "invalid capability set for capability v1" when it succeeds. *)
Theorem V1_gating_after_syscall (k : Kernel) (c : capabilities.Capabilities)
    (pid n : Z) (s : capabilities.CapabilitySet) :
  capabilities.Version c = 1 ->
  s = capabilities.Bounding \/ s = capabilities.Ambient ->
  snd (isSetFor k c pid n s)
    = (false,
       Some match capabilities.r_err
                    (snd (Capget k (capabilities.v1_header c pid) false)) with
            | Some e => capabilities.Errno e
            | None =>
                capabilities.errors_New
                  "invalid capability set for capability v1"
            end).
Proof.
  intros HV Hs. unfold capabilities.isSetFor. rewrite HV. simpl.
  destruct (Capget k (capabilities.v1_header c pid) false) as [k0 r]. simpl.
  destruct (capabilities.r_err r); simpl; [ reflexivity | ].
  destruct Hs as [-> | ->]; reflexivity.
Qed.

(** C5.  [Init] looks at the version the probe left in the header, which
    the kernel gives as one of its magic numbers
    LINUX_CAPABILITY_VERSION_1, _2, _3.  For each of the three it returns
    an instance with Version 1, 2, 3 and no error; for any other value it
    panics and returns no instance. *)
Theorem Init_known_versions_only (k : Kernel) :
  capabilities.r_err (snd (Capget k unix.zeroHeader true)) = None ->
  let hv := unix.Version
              (capabilities.r_hdr (snd (Capget k unix.zeroHeader true))) in
  (hv = unix.LINUX_CAPABILITY_VERSION_1 ->
   exists c, snd (Init k) = capabilities.InitReturn (Some c) None /\
             capabilities.Version c = 1) /\
  (hv = unix.LINUX_CAPABILITY_VERSION_2 ->
   exists c, snd (Init k) = capabilities.InitReturn (Some c) None /\
             capabilities.Version c = 2) /\
  (hv = unix.LINUX_CAPABILITY_VERSION_3 ->
   exists c, snd (Init k) = capabilities.InitReturn (Some c) None /\
             capabilities.Version c = 3) /\
  (hv <> unix.LINUX_CAPABILITY_VERSION_1 ->
   hv <> unix.LINUX_CAPABILITY_VERSION_2 ->
   hv <> unix.LINUX_CAPABILITY_VERSION_3 ->
   snd (Init k)
     = capabilities.InitPanic "Unsupported Linux capability version").
Proof.
  unfold capabilities.Init.
  destruct (Capget k unix.zeroHeader true) as [k0 r]. simpl.
  intros Herr. rewrite Herr.
  repeat split.
  - intros ->. simpl. eexists. split; reflexivity.
  - intros ->. simpl. eexists. split; reflexivity.
  - intros ->. simpl. eexists. split; reflexivity.
  - intros H1 H2 H3.
    apply Z.eqb_neq in H1, H2, H3. rewrite H1, H2, H3. reflexivity.
Qed.

(** [IsSet] does not use its pid argument. *)
Lemma IsSet_pid_unused (k : Kernel) (c : capabilities.Capabilities)
    (pid pid' n : Z) (s : capabilities.CapabilitySet) :
  IsSet k c pid n s = IsSet k c pid' n s.
Proof. reflexivity. Qed.

End FacadeProperties.

(** ** The facade on the concrete kernel *)

Lemma Version_fixed_at_Init_witness :
  snd (capabilities.Init sim.Kernel sim.Capget
         (sim.boot unix.LINUX_CAPABILITY_VERSION_3))
    = capabilities.InitReturn
        (Some (sim.instance unix.LINUX_CAPABILITY_VERSION_3)) None /\
  capabilities.Version
    (snd (fst (capabilities.calls sim.Kernel sim.Capget sim.self
                 (sim.boot unix.LINUX_CAPABILITY_VERSION_3)
                 (sim.instance unix.LINUX_CAPABILITY_VERSION_3)
                 [capabilities.CallisSetFor 1 12 capabilities.Effective;
                  capabilities.CallisSetFor 999 12 capabilities.Effective;
                  capabilities.CallIsSet 1 40 capabilities.Bounding;
                  capabilities.CallisSetFor 1 0 7])))
    = 3.
Proof.
  split; [ reflexivity | ].
  rewrite (proj2 (Version_fixed_at_Init sim.Kernel sim.Capget sim.self
                    (sim.boot unix.LINUX_CAPABILITY_VERSION_3)
                    (sim.instance unix.LINUX_CAPABILITY_VERSION_3) None
                    eq_refl)).
  reflexivity.
Defined.

Lemma error_comes_with_false_witness :
  snd (snd (capabilities.call sim.Kernel sim.Capget sim.self
              (sim.boot unix.LINUX_CAPABILITY_VERSION_3)
              (sim.instance unix.LINUX_CAPABILITY_VERSION_3)
              (capabilities.CallisSetFor 999 12 capabilities.Effective)))
    = Some (capabilities.Errno sim.ESRCH) /\
  fst (snd (capabilities.call sim.Kernel sim.Capget sim.self
              (sim.boot unix.LINUX_CAPABILITY_VERSION_3)
              (sim.instance unix.LINUX_CAPABILITY_VERSION_3)
              (capabilities.CallisSetFor 999 12 capabilities.Effective)))
    = false.
Proof.
  split; [ reflexivity | ].
  apply (error_comes_with_false sim.Kernel sim.Capget sim.self
           (sim.boot unix.LINUX_CAPABILITY_VERSION_3)
           (sim.instance unix.LINUX_CAPABILITY_VERSION_3)
           (capabilities.CallisSetFor 999 12 capabilities.Effective)).
  vm_compute. discriminate.
Defined.

Lemma V1_gating_after_syscall_witness :
  capabilities.Version (sim.instance unix.LINUX_CAPABILITY_VERSION_1) = 1 /\
  snd (capabilities.isSetFor sim.Kernel sim.Capget
         (sim.boot unix.LINUX_CAPABILITY_VERSION_1)
         (sim.instance unix.LINUX_CAPABILITY_VERSION_1)
         sim.self 12 capabilities.Ambient)
    = (false,
       Some (capabilities.errors_New
               "invalid capability set for capability v1")).
Proof.
  split; [ reflexivity | ].
  rewrite (V1_gating_after_syscall sim.Kernel sim.Capget
             (sim.boot unix.LINUX_CAPABILITY_VERSION_1)
             (sim.instance unix.LINUX_CAPABILITY_VERSION_1)
             sim.self 12 capabilities.Ambient eq_refl (or_intror eq_refl)).
  reflexivity.
Defined.

(** C4, as the spec states it, fails where the syscall fails: on a
    Version 1 instance a Bounding query for a pid the kernel does not know
    returns the kernel's ESRCH, not the invalid-set error. *)
Lemma V1_gating_hidden_by_syscall_error :
  capabilities.Version (sim.instance unix.LINUX_CAPABILITY_VERSION_1) = 1 /\
  snd (capabilities.isSetFor sim.Kernel sim.Capget
         (sim.boot unix.LINUX_CAPABILITY_VERSION_1)
         (sim.instance unix.LINUX_CAPABILITY_VERSION_1)
         999 12 capabilities.Bounding)
    = (false, Some (capabilities.Errno sim.ESRCH)) /\
  snd (capabilities.isSetFor sim.Kernel sim.Capget
         (sim.boot unix.LINUX_CAPABILITY_VERSION_1)
         (sim.instance unix.LINUX_CAPABILITY_VERSION_1)
         999 12 capabilities.Bounding)
    <> (false,
        Some (capabilities.errors_New
                "invalid capability set for capability v1")).
Proof.
  split; [ reflexivity | split; [ reflexivity | ] ].
  vm_compute. discriminate.
Qed.

Lemma Init_known_versions_only_witness :
  capabilities.r_err
    (snd (sim.Capget (sim.boot 4) unix.zeroHeader true)) = None /\
  snd (capabilities.Init sim.Kernel sim.Capget (sim.boot 4))
    = capabilities.InitPanic "Unsupported Linux capability version".
Proof.
  split; [ reflexivity | ].
  apply (Init_known_versions_only sim.Kernel sim.Capget (sim.boot 4) eq_refl);
    vm_compute; discriminate.
Defined.

(** C1.  [IsSet] hands [os.Getpid()] to [isSetFor] in place of its [pid]
    argument, so the header the kernel receives names the calling process.
    On the concrete kernel, the caller 4242 asks about pid 1, which holds
    capability 12 in its effective set: [IsSet] answers false and the kernel
    has seen pid 4242, while [isSetFor] with the same arguments answers
    true and the kernel has seen pid 1. *)
Theorem IsSet_queries_the_caller :
  (forall (Kernel : Type)
          (Capget : Kernel -> unix.CapUserHeader -> bool
                    -> Kernel * capabilities.CapgetReply)
          (os_Getpid : Z) (k : Kernel) (c : capabilities.Capabilities)
          (pid n : Z) (s : capabilities.CapabilitySet),
      capabilities.IsSet Kernel Capget os_Getpid k c pid n s
        = capabilities.isSetFor Kernel Capget k c os_Getpid n s) /\
  (let k := sim.boot unix.LINUX_CAPABILITY_VERSION_3 in
   let c := sim.instance unix.LINUX_CAPABILITY_VERSION_3 in
   let asked := capabilities.IsSet sim.Kernel sim.Capget sim.self k c
                  1 12 capabilities.Effective in
   let meant := capabilities.isSetFor sim.Kernel sim.Capget k c
                  1 12 capabilities.Effective in
   snd asked = (false, None) /\
   map unix.Pid (sim.seen (fst (fst asked))) = [4242] /\
   snd meant = (true, None) /\
   map unix.Pid (sim.seen (fst (fst meant))) = [1]).
Proof.
  split.
  - reflexivity.
  - vm_compute. repeat split; reflexivity.
Qed.

(** * Further properties of the decoder *)

(** A negative [int] converts to a [uint] far beyond the width of a word. *)
Lemma uint_negative (n : Z) : - 2 ^ 63 <= n < 0 -> 32 <= go.uint n.
Proof.
  intros Hn. unfold go.uint.
  rewrite <- (Z.mod_add n 1 (2 ^ 64)) by lia.
  rewrite Z.mod_small; lia.
Qed.

(** A zero word fails the test at any shift count. *)
Lemma zero_word_test (x : Z) : negb (Z.land x 0 =? 0) = false.
Proof. rewrite Z.land_0_r. reflexivity. Qed.

(** The V1 predicates by range of the index. *)
Lemma V1_inside (v1 : CapabilityV1.t) (n : Z) :
  0 <= n <= 31 ->
  CapabilityV1.IsEffectiveSet v1 n
    = Z.testbit (unix.Effective (CapabilityV1.Data v1)) n /\
  CapabilityV1.IsPermittedSet v1 n
    = Z.testbit (unix.Permitted (CapabilityV1.Data v1)) n /\
  CapabilityV1.IsInheritableSet v1 n
    = Z.testbit (unix.Inheritable (CapabilityV1.Data v1)) n.
Proof.
  intros Hn. v1_unfold.
  rewrite uint_id by (unfold go.int_max; lia).
  repeat split; apply bit_test; lia.
Qed.

Lemma V1_outside (v1 : CapabilityV1.t) (n : Z) :
  - 2 ^ 63 <= n < 0 \/ 32 <= n <= go.int_max ->
  CapabilityV1.IsEffectiveSet v1 n = false /\
  CapabilityV1.IsPermittedSet v1 n = false /\
  CapabilityV1.IsInheritableSet v1 n = false.
Proof.
  intros Hn.
  assert (Hu : 32 <= go.uint n).
  { destruct Hn as [Hneg | Hbig].
    - apply uint_negative. assumption.
    - rewrite uint_id; lia. }
  v1_unfold. repeat split; apply bit_test_out; assumption.
Qed.

Lemma V3_negative (v3 : CapabilityV3.t) (n : Z) :
  - 2 ^ 63 <= n < 0 ->
  CapabilityV3.IsEffectiveSet v3 n = false /\
  CapabilityV3.IsPermittedSet v3 n = false /\
  CapabilityV3.IsInheritableSet v3 n = false /\
  CapabilityV3.IsBoundingSet v3 n = false /\
  CapabilityV3.IsAmbientSet v3 n = false.
Proof.
  intros Hn. pose proof (uint_negative n Hn) as Hu.
  v3_unfold.
  destruct (Z.gtb_spec n 31) as [Hgt | Hle]; [ lia | ].
  repeat split; apply bit_test_out; assumption.
Qed.

(** X1.  A negative capability index is answered false by every predicate of
    both layouts, whatever the snapshot holds: the conversion [uint(n)]
    makes the shift count exceed the word. *)
Theorem negative_index_never_set
    (v1 : CapabilityV1.t) (v3 : CapabilityV3.t) (n : Z) :
  - 2 ^ 63 <= n < 0 ->
  (CapabilityV1.IsEffectiveSet v1 n = false /\
   CapabilityV1.IsPermittedSet v1 n = false /\
   CapabilityV1.IsInheritableSet v1 n = false) /\
  (CapabilityV3.IsEffectiveSet v3 n = false /\
   CapabilityV3.IsPermittedSet v3 n = false /\
   CapabilityV3.IsInheritableSet v3 n = false /\
   CapabilityV3.IsBoundingSet v3 n = false /\
   CapabilityV3.IsAmbientSet v3 n = false).
Proof.
  intros Hn. split.
  - apply V1_outside. left. assumption.
  - apply V3_negative. assumption.
Qed.

Lemma negative_index_never_set_witness :
  - 2 ^ 63 <= -1 < 0 /\
  CapabilityV3.IsEffectiveSet
    (CapabilityV3.mk unix.zeroHeader
       (unix.mkData 0xFFFFFFFF 0 0, unix.mkData 0xFFFFFFFF 0 0)
       (0, 0) (0, 0)) (-1) = false.
Proof.
  split; [ lia | ].
  apply (negative_index_never_set CapabilityV1.zero
           (CapabilityV3.mk unix.zeroHeader
              (unix.mkData 0xFFFFFFFF 0 0, unix.mkData 0xFFFFFFFF 0 0)
              (0, 0) (0, 0)) (-1)).
  lia.
Defined.

(** X2.  In the V1 layout a word with the single bit [m] set answers true at
    index [m] and false at every other [int] index, negative and beyond 31
    included. *)
Theorem V1_single_bit_only_at_its_index (v1 : CapabilityV1.t) (m n : Z) :
  0 <= m <= 31 ->
  - 2 ^ 63 <= n <= go.int_max ->
  (unix.Effective (CapabilityV1.Data v1) = 2 ^ m ->
   CapabilityV1.IsEffectiveSet v1 n = (n =? m)) /\
  (unix.Permitted (CapabilityV1.Data v1) = 2 ^ m ->
   CapabilityV1.IsPermittedSet v1 n = (n =? m)) /\
  (unix.Inheritable (CapabilityV1.Data v1) = 2 ^ m ->
   CapabilityV1.IsInheritableSet v1 n = (n =? m)).
Proof.
  intros Hm Hn.
  assert (Hcase : 0 <= n <= 31 \/ (- 2 ^ 63 <= n < 0 \/ 32 <= n <= go.int_max))
    by lia.
  destruct Hcase as [Hin | Hout].
  - destruct (V1_inside v1 n Hin) as (He & Hp & Hi).
    rewrite He, Hp, Hi.
    repeat split; intros ->; rewrite Z.pow2_bits_eqb by lia;
      apply Z.eqb_sym.
  - destruct (V1_outside v1 n Hout) as (He & Hp & Hi).
    rewrite He, Hp, Hi.
    destruct (Z.eqb_spec n m); [ lia | ]. auto.
Qed.

Lemma V1_single_bit_only_at_its_index_witness :
  0 <= 5 <= 31 /\ - 2 ^ 63 <= 37 <= go.int_max /\
  CapabilityV1.IsPermittedSet
    (CapabilityV1.mk unix.zeroHeader (unix.mkData 0 32 0)) 37 = false.
Proof.
  split; [ lia | split; [ unfold go.int_max; lia | ] ].
  destruct (V1_single_bit_only_at_its_index
              (CapabilityV1.mk unix.zeroHeader (unix.mkData 0 32 0)) 5 37)
    as (_ & Hp & _); [ lia | unfold go.int_max; lia | ].
  rewrite Hp; reflexivity.
Defined.

(** X3.  In the V3 layout, with the single bit of index [m] of 0..63 set in a
    set's two words (bit [m] of word 0 up to 31, bit [m mod 32] of word 1
    above), the predicate of that set answers true at index [m] and false
    at every other index up to 63: no two indices of 0..63 share a bit. *)
Theorem V3_single_bit_only_at_its_index (v3 : CapabilityV3.t) (m n : Z) :
  0 <= m <= 63 ->
  - 2 ^ 63 <= n <= 63 ->
  let w0 := if m >? 31 then 0 else 2 ^ m in
  let w1 := if m >? 31 then 2 ^ (m mod 32) else 0 in
  (unix.Effective (fst (CapabilityV3.Datap v3)) = w0 ->
   unix.Effective (snd (CapabilityV3.Datap v3)) = w1 ->
   CapabilityV3.IsEffectiveSet v3 n = (n =? m)) /\
  (unix.Permitted (fst (CapabilityV3.Datap v3)) = w0 ->
   unix.Permitted (snd (CapabilityV3.Datap v3)) = w1 ->
   CapabilityV3.IsPermittedSet v3 n = (n =? m)) /\
  (unix.Inheritable (fst (CapabilityV3.Datap v3)) = w0 ->
   unix.Inheritable (snd (CapabilityV3.Datap v3)) = w1 ->
   CapabilityV3.IsInheritableSet v3 n = (n =? m)) /\
  (fst (CapabilityV3.Bounds v3) = w0 ->
   snd (CapabilityV3.Bounds v3) = w1 ->
   CapabilityV3.IsBoundingSet v3 n = (n =? m)) /\
  (fst (CapabilityV3.Ambient v3) = w0 ->
   snd (CapabilityV3.Ambient v3) = w1 ->
   CapabilityV3.IsAmbientSet v3 n = (n =? m)).
Proof.
  intros Hm Hn w0 w1.
  assert (Hmb : 0 <= m mod 32 < 32) by (apply Z.mod_pos_bound; lia).
  assert (Hnb : 0 <= n mod 32 < 32) by (apply Z.mod_pos_bound; lia).
  assert (Hcase : n < 0 \/ 0 <= n <= 31 \/ 32 <= n) by lia.
  destruct Hcase as [Hneg | [Hlo | Hhi]].
  - destruct (V3_negative v3 n) as (He & Hp & Hi & Hb & Ha); [ lia | ].
    rewrite He, Hp, Hi, Hb, Ha.
    destruct (Z.eqb_spec n m); [ lia | ]. repeat split; reflexivity.
  - destruct (V3_low v3 n Hlo) as (He & Hp & Hi & Hb & Ha).
    rewrite He, Hp, Hi, Hb, Ha.
    assert (Hw0 : Z.testbit w0 n = (n =? m)).
    { subst w0. destruct (Z.gtb_spec m 31).
      - rewrite Z.bits_0. symmetry. apply Z.eqb_neq. lia.
      - rewrite Z.pow2_bits_eqb by lia. apply Z.eqb_sym. }
    repeat split; intros -> _; exact Hw0.
  - destruct (V3_high v3 n) as (He & Hp & Hi & Hb & Ha);
      [ unfold go.int_max; lia | ].
    rewrite He, Hp, Hi, Hb, Ha.
    assert (Hw1 : Z.testbit w1 (n mod 32) = (n =? m)).
    { subst w1. destruct (Z.gtb_spec m 31).
      - rewrite Z.pow2_bits_eqb by lia.
        destruct (Z.eqb_spec (m mod 32) (n mod 32));
          destruct (Z.eqb_spec n m); try reflexivity; exfalso;
          Z.div_mod_to_equations; lia.
      - rewrite Z.bits_0. symmetry. apply Z.eqb_neq. lia. }
    repeat split; intros _ ->; exact Hw1.
Qed.

Lemma V3_single_bit_only_at_its_index_witness :
  0 <= 40 <= 63 /\ - 2 ^ 63 <= 8 <= 63 /\
  CapabilityV3.IsBoundingSet
    (CapabilityV3.mk unix.zeroHeader (unix.zeroData, unix.zeroData)
       (0, 0x100) (0, 0)) 8 = false.
Proof.
  split; [ lia | split; [ lia | ] ].
  destruct (V3_single_bit_only_at_its_index
              (CapabilityV3.mk unix.zeroHeader
                 (unix.zeroData, unix.zeroData) (0, 0x100) (0, 0)) 40 8)
    as (_ & _ & _ & Hb & _); [ lia | lia | ].
  rewrite Hb; reflexivity.
Defined.

(** * Further properties of the facade *)

(** Predicates on words that are all zero, at any index. *)
Lemma V1_clear (v1 : CapabilityV1.t) (n : Z) :
  CapabilityV1.Data v1 = unix.zeroData ->
  CapabilityV1.IsEffectiveSet v1 n = false /\
  CapabilityV1.IsPermittedSet v1 n = false /\
  CapabilityV1.IsInheritableSet v1 n = false.
Proof.
  intros Hd. v1_unfold. rewrite Hd. simpl.
  repeat split; apply zero_word_test.
Qed.

Lemma V3_Datap_clear (v3 : CapabilityV3.t) (n : Z) :
  CapabilityV3.Datap v3 = (unix.zeroData, unix.zeroData) ->
  CapabilityV3.IsEffectiveSet v3 n = false /\
  CapabilityV3.IsPermittedSet v3 n = false /\
  CapabilityV3.IsInheritableSet v3 n = false.
Proof.
  intros Hd. v3_unfold. rewrite Hd.
  destruct (n >? 31); unfold go.at2; simpl;
    repeat split; apply zero_word_test.
Qed.

Lemma V3_Bounds_clear (v3 : CapabilityV3.t) (n : Z) :
  CapabilityV3.Bounds v3 = (0, 0) -> CapabilityV3.IsBoundingSet v3 n = false.
Proof.
  intros Hd. v3_unfold. rewrite Hd.
  destruct (n >? 31); unfold go.at2; simpl; apply zero_word_test.
Qed.

Lemma V3_Ambient_clear (v3 : CapabilityV3.t) (n : Z) :
  CapabilityV3.Ambient v3 = (0, 0) -> CapabilityV3.IsAmbientSet v3 n = false.
Proof.
  intros Hd. v3_unfold. rewrite Hd.
  destruct (n >? 31); unfold go.at2; simpl; apply zero_word_test.
Qed.

(** [int32] keeps only the low 32 bits, and keeps a value that fits. *)
Lemma int32_wrap (p m : Z) : go.int32 (p + m * 2 ^ 32) = go.int32 p.
Proof.
  unfold go.int32.
  replace (p + m * 2 ^ 32 + 2 ^ 31) with (p + 2 ^ 31 + m * 2 ^ 32) by ring.
  rewrite Z.mod_add by lia. reflexivity.
Qed.

Lemma int32_id (p : Z) : - 2 ^ 31 <= p < 2 ^ 31 -> go.int32 p = p.
Proof.
  intros Hp. unfold go.int32. rewrite Z.mod_small; lia.
Qed.

Section FacadeFurther.

Variable Kernel : Type.
Variable Capget :
  Kernel -> unix.CapUserHeader -> bool -> Kernel * capabilities.CapgetReply.
Variable os_Getpid : Z.

Local Abbreviation Init := (capabilities.Init Kernel Capget).
Local Abbreviation isSetFor := (capabilities.isSetFor Kernel Capget).
Local Abbreviation IsSet := (capabilities.IsSet Kernel Capget os_Getpid).
Local Abbreviation call := (capabilities.call Kernel Capget os_Getpid).
Local Abbreviation calls := (capabilities.calls Kernel Capget os_Getpid).

Lemma Init_instance_clear (k : Kernel) (c : capabilities.Capabilities)
    (err : option capabilities.error) :
  snd (Init k) = capabilities.InitReturn (Some c) err ->
  CapabilityV1.Data (capabilities.v1 c) = unix.zeroData /\
  CapabilityV3.Datap (capabilities.v3 c) = (unix.zeroData, unix.zeroData) /\
  CapabilityV3.Bounds (capabilities.v3 c) = (0, 0) /\
  CapabilityV3.Ambient (capabilities.v3 c) = (0, 0).
Proof.
  unfold capabilities.Init.
  destruct (Capget k unix.zeroHeader true) as [k0 r].
  destruct (capabilities.r_err r); simpl; [ discriminate | ].
  repeat (split_step; simpl); intros H; inversion H; subst; simpl; auto.
Qed.

(** No query writes the bounding or the ambient words. *)
Lemma isSetFor_keeps_Bounds_Ambient (k : Kernel)
    (c : capabilities.Capabilities) (pid n : Z)
    (s : capabilities.CapabilitySet) :
  CapabilityV3.Bounds (capabilities.v3 (snd (fst (isSetFor k c pid n s))))
    = CapabilityV3.Bounds (capabilities.v3 c) /\
  CapabilityV3.Ambient (capabilities.v3 (snd (fst (isSetFor k c pid n s))))
    = CapabilityV3.Ambient (capabilities.v3 c).
Proof.
  unfold capabilities.isSetFor. split_all; split; reflexivity.
Qed.

Lemma calls_keep_Bounds_Ambient (qs : list capabilities.Call) :
  forall (k : Kernel) (c : capabilities.Capabilities),
    CapabilityV3.Bounds (capabilities.v3 (snd (fst (calls k c qs))))
      = CapabilityV3.Bounds (capabilities.v3 c) /\
    CapabilityV3.Ambient (capabilities.v3 (snd (fst (calls k c qs))))
      = CapabilityV3.Ambient (capabilities.v3 c).
Proof.
  induction qs as [ | q qs IH]; intros k c; simpl.
  - split; reflexivity.
  - assert (Hq :
      CapabilityV3.Bounds (capabilities.v3 (snd (fst (call k c q))))
        = CapabilityV3.Bounds (capabilities.v3 c) /\
      CapabilityV3.Ambient (capabilities.v3 (snd (fst (call k c q))))
        = CapabilityV3.Ambient (capabilities.v3 c)).
    { destruct q; simpl; unfold capabilities.IsSet;
        apply isSetFor_keeps_Bounds_Ambient. }
    destruct (call k c q) as [[k1 c1] res]; simpl in Hq.
    pose proof (IH k1 c1) as Hqs.
    destruct (calls k1 c1 qs) as [[k2 c2] rest]; simpl in *.
    destruct Hq as [Hb Ha], Hqs as [Hb' Ha']. split; congruence.
Qed.

(** X4.  The instance [Init] returns has every flag cleared, as its doc comment
    says: before any query, each predicate of both layouts is false at
    every index. *)
Theorem Init_instance_all_flags_cleared (k : Kernel)
    (c : capabilities.Capabilities) (err : option capabilities.error)
    (n : Z) :
  snd (Init k) = capabilities.InitReturn (Some c) err ->
  (CapabilityV1.IsEffectiveSet (capabilities.v1 c) n = false /\
   CapabilityV1.IsPermittedSet (capabilities.v1 c) n = false /\
   CapabilityV1.IsInheritableSet (capabilities.v1 c) n = false) /\
  (CapabilityV3.IsEffectiveSet (capabilities.v3 c) n = false /\
   CapabilityV3.IsPermittedSet (capabilities.v3 c) n = false /\
   CapabilityV3.IsInheritableSet (capabilities.v3 c) n = false) /\
  CapabilityV3.IsBoundingSet (capabilities.v3 c) n = false /\
  CapabilityV3.IsAmbientSet (capabilities.v3 c) n = false.
Proof.
  intros HInit.
  destruct (Init_instance_clear k c err HInit) as (H1 & Hd & Hb & Ha).
  split; [ apply V1_clear; assumption | ].
  split; [ apply V3_Datap_clear; assumption | ].
  split; [ apply V3_Bounds_clear | apply V3_Ambient_clear ]; assumption.
Qed.

(** X5.  Nothing ever fills the bounding and ambient words: on an instance that
    [Init] returned, after any sequence of queries, a query for Bounding or
    for Ambient answers false at every capability index and for every pid,
    whatever the kernel replies. *)
Theorem Bounding_and_Ambient_always_false (k : Kernel)
    (c : capabilities.Capabilities) (err : option capabilities.error)
    (qs : list capabilities.Call) (k1 k2 : Kernel) (pid n : Z)
    (s : capabilities.CapabilitySet) :
  snd (Init k) = capabilities.InitReturn (Some c) err ->
  s = capabilities.Bounding \/ s = capabilities.Ambient ->
  fst (snd (isSetFor k2 (snd (fst (calls k1 c qs))) pid n s)) = false.
Proof.
  intros HInit Hs.
  destruct (Init_instance_clear k c err HInit) as (_ & _ & Hb & Ha).
  destruct (calls_keep_Bounds_Ambient qs k1 c) as [Hb' Ha'].
  rewrite Hb in Hb'. rewrite Ha in Ha'.
  set (c' := snd (fst (calls k1 c qs))) in *.
  unfold capabilities.isSetFor.
  destruct Hs as [-> | ->]; split_all;
    first [ reflexivity
          | apply V3_Bounds_clear; simpl; assumption
          | apply V3_Ambient_clear; simpl; assumption ].
Qed.

(** X6.  [Init] makes one syscall, the probe, and ends in exactly one of three
    ways: an instance of Version 1, 2 or 3 with a nil error, after a probe
    that succeeded; no instance and the error
    "unable to probe capability version", after a probe that failed,
    whatever its errno and whatever it left in the header; or a panic,
    after a probe that succeeded.  It never returns an instance with an
    error, nor nil with nil. *)
Theorem Init_outcomes (k : Kernel) :
  fst (Init k) = fst (Capget k unix.zeroHeader true) /\
  match snd (Init k) with
  | capabilities.InitReturn (Some c) None =>
      capabilities.r_err (snd (Capget k unix.zeroHeader true)) = None /\
      (capabilities.Version c = 1 \/ capabilities.Version c = 2 \/
       capabilities.Version c = 3)
  | capabilities.InitReturn None (Some e) =>
      capabilities.r_err (snd (Capget k unix.zeroHeader true)) <> None /\
      e = capabilities.errors_New "unable to probe capability version"
  | capabilities.InitReturn _ _ => False
  | capabilities.InitPanic msg =>
      capabilities.r_err (snd (Capget k unix.zeroHeader true)) = None /\
      msg = "Unsupported Linux capability version"%string
  end.
Proof.
  unfold capabilities.Init.
  destruct (Capget k unix.zeroHeader true) as [k0 r]. simpl.
  destruct (capabilities.r_err r) as [e | ]; simpl.
  - split; [ reflexivity | ]. split; [ discriminate | reflexivity ].
  - repeat (split_step; simpl); split; auto.
Qed.

(** X7.  An instance whose Version is not 1, 2 or 3, such as the zero value of
    the struct, is refused by every query before anything happens: the
    result is false with "invalid capability version", no syscall is made
    and the instance is left as it was. *)
Theorem invalid_Version_refused_without_syscall (k : Kernel)
    (c : capabilities.Capabilities) (q : capabilities.Call) :
  capabilities.Version c < 1 \/ capabilities.Version c > 3 ->
  call k c q
    = (k, c,
       (false, Some (capabilities.errors_New "invalid capability version"))).
Proof.
  intros HV.
  assert (Hguard : (capabilities.Version c <? 1)
                   || (capabilities.Version c >? 3) = true).
  { apply orb_true_iff. destruct HV as [Hlt | Hgt].
    - left. apply Z.ltb_lt. assumption.
    - right. apply Z.gtb_lt. lia. }
  destruct q as [pid n s | pid n s]; simpl;
    unfold capabilities.IsSet, capabilities.isSetFor;
    rewrite Hguard; reflexivity.
Qed.

(** The header a query sends does not depend on the header the instance
    held: both fields are assigned before the call. *)
Lemma v1_header_sent (c : capabilities.Capabilities) (pid : Z) :
  capabilities.v1_header c pid
    = unix.mkHeader unix.LINUX_CAPABILITY_VERSION_1 (go.int32 pid).
Proof. reflexivity. Qed.

Lemma v3_header_sent (c : capabilities.Capabilities) (pid : Z) :
  capabilities.Version c = 2 \/ capabilities.Version c = 3 ->
  capabilities.v3_header c pid
    = unix.mkHeader
        (if capabilities.Version c =? 2
         then unix.LINUX_CAPABILITY_VERSION_2
         else unix.LINUX_CAPABILITY_VERSION_3)
        (go.int32 pid).
Proof.
  intros [HV | HV]; unfold capabilities.v3_header; rewrite HV; reflexivity.
Qed.

Ltac bool_facts :=
  repeat match goal with
    | H : (_ || _) = false |- _ => apply orb_false_iff in H; destruct H
    | H : (_ =? _) = true |- _ => apply Z.eqb_eq in H
    | H : (_ =? _) = false |- _ => apply Z.eqb_neq in H
    | H : (_ <? _) = true |- _ => apply Z.ltb_lt in H
    | H : (_ <? _) = false |- _ => apply Z.ltb_ge in H
    | H : (_ >? _) = true |- _ => apply Z.gtb_lt in H
    | H : (_ >? _) = false |- _ => rewrite Z.gtb_ltb in H
    end.

(** X8.  A query on an instance of Version 1, 2 or 3 makes exactly one syscall,
    with a non-nil data pointer and a header holding the magic number of
    that Version and [int32(pid)], whatever the set kind asked for and
    whatever header the instance held before. *)
Theorem query_is_one_syscall (k : Kernel) (c : capabilities.Capabilities)
    (pid n : Z) (s : capabilities.CapabilitySet) :
  1 <= capabilities.Version c <= 3 ->
  let magic :=
    if capabilities.Version c =? 1 then unix.LINUX_CAPABILITY_VERSION_1
    else if capabilities.Version c =? 2 then unix.LINUX_CAPABILITY_VERSION_2
    else unix.LINUX_CAPABILITY_VERSION_3 in
  fst (fst (isSetFor k c pid n s))
    = fst (Capget k (unix.mkHeader magic (go.int32 pid)) false).
Proof.
  intros HV magic. subst magic.
  assert (Hcase : capabilities.Version c = 1 \/
                  capabilities.Version c = 2 \/ capabilities.Version c = 3)
    by lia.
  unfold capabilities.isSetFor.
  destruct Hcase as [HV1 | H23].
  - rewrite HV1. simpl. rewrite v1_header_sent.
    destruct (Capget k _ false) as [k0 r]. simpl.
    split_all; reflexivity.
  - rewrite (v3_header_sent c pid H23).
    destruct H23 as [HV2 | HV3]; [ rewrite HV2 | rewrite HV3 ]; simpl;
      destruct (Capget k _ false) as [k0 r]; simpl;
      split_all; reflexivity.
Qed.

(** X9.  Only the low 32 bits of the pid reach the kernel: two pids that differ
    by a multiple of 2^32 give the same query, and a pid that fits an
    [int32] is sent as it is. *)
Theorem pid_truncated_to_int32 (k : Kernel) (c : capabilities.Capabilities)
    (pid n : Z) (s : capabilities.CapabilitySet) :
  (forall m : Z,
      isSetFor k c (pid + m * 2 ^ 32) n s = isSetFor k c pid n s) /\
  (- 2 ^ 31 <= pid < 2 ^ 31 ->
   unix.Pid (capabilities.v1_header c pid) = pid /\
   unix.Pid (capabilities.v3_header c pid) = pid).
Proof.
  split.
  - intros m. unfold capabilities.isSetFor, capabilities.v1_header,
      capabilities.v3_header.
    rewrite int32_wrap. reflexivity.
  - intros Hp. unfold capabilities.v1_header, capabilities.v3_header. simpl.
    rewrite int32_id by assumption. split; reflexivity.
Qed.

(** X10.  A query returns a nil error exactly when the instance has Version 1,
    2 or 3, its syscall succeeded, and the set kind is one the layout has:
    Effective, Permitted or Inheritable under Version 1, any of the five
    under Version 2 or 3. *)
Theorem nil_error_iff (k : Kernel) (c : capabilities.Capabilities)
    (pid n : Z) (s : capabilities.CapabilitySet) :
  snd (snd (isSetFor k c pid n s)) = None <->
  (capabilities.Version c = 1 /\
   capabilities.r_err
     (snd (Capget k (capabilities.v1_header c pid) false)) = None /\
   (s = capabilities.Effective \/ s = capabilities.Permitted \/
    s = capabilities.Inheritable)) \/
  ((capabilities.Version c = 2 \/ capabilities.Version c = 3) /\
   capabilities.r_err
     (snd (Capget k (capabilities.v3_header c pid) false)) = None /\
   (s = capabilities.Effective \/ s = capabilities.Permitted \/
    s = capabilities.Inheritable \/ s = capabilities.Bounding \/
    s = capabilities.Ambient)).
Proof.
  unfold capabilities.isSetFor.
  unfold capabilities.Effective, capabilities.Permitted,
    capabilities.Inheritable, capabilities.Bounding, capabilities.Ambient.
  destruct ((capabilities.Version c <? 1) || (capabilities.Version c >? 3))
    eqn:Hguard.
  - simpl. split; [ discriminate | ].
    apply orb_true_iff in Hguard.
    destruct Hguard as [Hlt | Hgt];
      [ apply Z.ltb_lt in Hlt | apply Z.gtb_lt in Hgt ]; lia.
  - destruct (capabilities.Version c =? 1) eqn:HV1.
    + destruct (Capget k (capabilities.v1_header c pid) false) as [k0 r].
      simpl. destruct (capabilities.r_err r) as [e | ] eqn:Herr; simpl.
      * split; [ discriminate | ]. intros [(_ & Hx & _) | (Hx & _)];
          [ discriminate | bool_facts; lia ].
      * split_all; bool_facts; split; intros Hx;
          first [ discriminate | tauto | lia
                | left; repeat split; auto; lia
                | destruct Hx as [(_ & _ & Hy) | (Hy & _)]; lia ].
    + destruct (Capget k (capabilities.v3_header c pid) false) as [k0 r].
      simpl. destruct (capabilities.r_err r) as [e | ] eqn:Herr; simpl.
      * split; [ discriminate | ]. intros [(Hx & _) | (_ & Hx & _)];
          [ bool_facts; lia | discriminate ].
      * split_all; bool_facts; split; intros Hx;
          first [ discriminate | tauto
                | right; repeat split; auto; lia
                | destruct Hx as [(Hy & _) | (_ & _ & Hy)]; lia ].
Qed.

(** X11.  On an instance of Version 2 or 3 a set kind that is none of the five
    named values is refused after the syscall: the result is false with the
    syscall's error when the syscall fails, and with
    "invalid capability set for capability v2 or v3" when it succeeds. *)
Theorem unknown_set_refused_after_syscall (k : Kernel)
    (c : capabilities.Capabilities) (pid n : Z)
    (s : capabilities.CapabilitySet) :
  capabilities.Version c = 2 \/ capabilities.Version c = 3 ->
  s < 0 \/ s > 4 ->
  snd (isSetFor k c pid n s)
    = (false,
       Some match capabilities.r_err
                    (snd (Capget k (capabilities.v3_header c pid) false)) with
            | Some e => capabilities.Errno e
            | None =>
                capabilities.errors_New
                  "invalid capability set for capability v2 or v3"
            end).
Proof.
  intros HV Hs. unfold capabilities.isSetFor.
  assert (Hguard : (capabilities.Version c <? 1)
                   || (capabilities.Version c >? 3) = false)
    by (destruct HV as [-> | ->]; reflexivity).
  assert (HV1 : (capabilities.Version c =? 1) = false)
    by (destruct HV as [-> | ->]; reflexivity).
  rewrite Hguard, HV1.
  destruct (Capget k (capabilities.v3_header c pid) false) as [k0 r]. simpl.
  destruct (capabilities.r_err r); simpl; [ reflexivity | ].
  unfold capabilities.Effective, capabilities.Permitted,
    capabilities.Inheritable, capabilities.Bounding, capabilities.Ambient.
  split_all; bool_facts; first [ lia | reflexivity ].
Qed.

(** X12.  A query overwrites the snapshot of its own layout only: under
    Version 1 the V3 structure is left as it was, under Version 2 or 3 the
    V1 structure is, and the bounding and ambient words are never
    written. *)
Theorem query_writes_its_layout_only (k : Kernel)
    (c : capabilities.Capabilities) (pid n : Z)
    (s : capabilities.CapabilitySet) :
  (capabilities.Version c = 1 ->
   capabilities.v3 (snd (fst (isSetFor k c pid n s))) = capabilities.v3 c) /\
  (capabilities.Version c <> 1 ->
   capabilities.v1 (snd (fst (isSetFor k c pid n s))) = capabilities.v1 c) /\
  CapabilityV3.Bounds (capabilities.v3 (snd (fst (isSetFor k c pid n s))))
    = CapabilityV3.Bounds (capabilities.v3 c) /\
  CapabilityV3.Ambient (capabilities.v3 (snd (fst (isSetFor k c pid n s))))
    = CapabilityV3.Ambient (capabilities.v3 c).
Proof.
  split; [ | split; [ | apply isSetFor_keeps_Bounds_Ambient ] ].
  - intros HV. unfold capabilities.isSetFor. rewrite HV. simpl.
    split_all; reflexivity.
  - intros HV. apply Z.eqb_neq in HV.
    unfold capabilities.isSetFor. rewrite HV.
    split_all; reflexivity.
Qed.

(** X13.  End to end under Version 2 or 3: when the syscall succeeds and the
    kernel copies out two records, a query for Effective, Permitted or
    Inheritable at an index 0..63 answers with the bit of the records just
    received, first record up to index 31 and second record above, with a
    nil error; what the snapshot held before plays no part. *)
Theorem V3_query_reads_the_reply (k : Kernel) (c : capabilities.Capabilities)
    (pid n : Z) (d0 d1 : unix.CapUserData) (rest : list unix.CapUserData) :
  capabilities.Version c = 2 \/ capabilities.Version c = 3 ->
  capabilities.r_err
    (snd (Capget k (capabilities.v3_header c pid) false)) = None ->
  capabilities.r_data
    (snd (Capget k (capabilities.v3_header c pid) false))
    = d0 :: d1 :: rest ->
  0 <= n <= 63 ->
  snd (isSetFor k c pid n capabilities.Effective)
    = (Z.testbit (unix.Effective (if n >? 31 then d1 else d0)) (n mod 32),
       None) /\
  snd (isSetFor k c pid n capabilities.Permitted)
    = (Z.testbit (unix.Permitted (if n >? 31 then d1 else d0)) (n mod 32),
       None) /\
  snd (isSetFor k c pid n capabilities.Inheritable)
    = (Z.testbit (unix.Inheritable (if n >? 31 then d1 else d0)) (n mod 32),
       None).
Proof.
  intros HV Herr Hdata Hn. unfold capabilities.isSetFor.
  assert (Hguard : (capabilities.Version c <? 1)
                   || (capabilities.Version c >? 3) = false)
    by (destruct HV as [-> | ->]; reflexivity).
  assert (HV1 : (capabilities.Version c =? 1) = false)
    by (destruct HV as [-> | ->]; reflexivity).
  rewrite Hguard, HV1.
  destruct (Capget k (capabilities.v3_header c pid) false) as [k0 r].
  simpl in Herr, Hdata. rewrite Herr, Hdata. simpl.
  destruct (Z.gtb_spec n 31) as [Hgt | Hle].
  - match goal with
    | |- context [CapabilityV3.IsEffectiveSet ?v n] =>
        destruct (V3_high v n) as (He & Hp & Hi & _);
          [ unfold go.int_max; lia | ]
    end.
    rewrite He, Hp, Hi. simpl. auto.
  - match goal with
    | |- context [CapabilityV3.IsEffectiveSet ?v n] =>
        destruct (V3_low v n) as (He & Hp & Hi & _); [ lia | ]
    end.
    rewrite He, Hp, Hi. simpl. rewrite (Z.mod_small n 32) by lia. auto.
Qed.

(** X14.  End to end under Version 1: when the syscall succeeds and the kernel
    copies out a record, a query for Effective, Permitted or Inheritable at
    an index 0..31 answers with bit [n] of the record just received, with a
    nil error. *)
Theorem V1_query_reads_the_reply (k : Kernel) (c : capabilities.Capabilities)
    (pid n : Z) (d0 : unix.CapUserData) (rest : list unix.CapUserData) :
  capabilities.Version c = 1 ->
  capabilities.r_err
    (snd (Capget k (capabilities.v1_header c pid) false)) = None ->
  capabilities.r_data
    (snd (Capget k (capabilities.v1_header c pid) false)) = d0 :: rest ->
  0 <= n <= 31 ->
  snd (isSetFor k c pid n capabilities.Effective)
    = (Z.testbit (unix.Effective d0) n, None) /\
  snd (isSetFor k c pid n capabilities.Permitted)
    = (Z.testbit (unix.Permitted d0) n, None) /\
  snd (isSetFor k c pid n capabilities.Inheritable)
    = (Z.testbit (unix.Inheritable d0) n, None).
Proof.
  intros HV Herr Hdata Hn. unfold capabilities.isSetFor.
  rewrite HV. simpl.
  destruct (Capget k (capabilities.v1_header c pid) false) as [k0 r].
  simpl in Herr, Hdata. rewrite Herr, Hdata. simpl.
  match goal with
  | |- context [CapabilityV1.IsEffectiveSet ?v n] =>
      destruct (V1_inside v n Hn) as (He & Hp & Hi)
  end.
  rewrite He, Hp, Hi. simpl. auto.
Qed.

End FacadeFurther.

(** ** The further properties on the concrete kernel *)

Lemma Init_instance_all_flags_cleared_witness :
  snd (capabilities.Init sim.Kernel sim.Capget
         (sim.boot unix.LINUX_CAPABILITY_VERSION_2))
    = capabilities.InitReturn
        (Some (sim.instance unix.LINUX_CAPABILITY_VERSION_2)) None /\
  CapabilityV3.IsEffectiveSet
    (capabilities.v3 (sim.instance unix.LINUX_CAPABILITY_VERSION_2)) 12
    = false.
Proof.
  split; [ reflexivity | ].
  apply (Init_instance_all_flags_cleared sim.Kernel sim.Capget
           (sim.boot unix.LINUX_CAPABILITY_VERSION_2)
           (sim.instance unix.LINUX_CAPABILITY_VERSION_2) None 12 eq_refl).
Defined.

Lemma Bounding_and_Ambient_always_false_witness :
  snd (capabilities.Init sim.Kernel sim.Capget
         (sim.boot unix.LINUX_CAPABILITY_VERSION_3))
    = capabilities.InitReturn
        (Some (sim.instance unix.LINUX_CAPABILITY_VERSION_3)) None /\
  fst (snd (capabilities.isSetFor sim.Kernel sim.Capget
              (sim.boot unix.LINUX_CAPABILITY_VERSION_3)
              (snd (fst (capabilities.calls sim.Kernel sim.Capget sim.self
                           (sim.boot unix.LINUX_CAPABILITY_VERSION_3)
                           (sim.instance unix.LINUX_CAPABILITY_VERSION_3)
                           [capabilities.CallisSetFor 1 40
                              capabilities.Effective])))
              1 40 capabilities.Bounding))
    = false.
Proof.
  split; [ reflexivity | ].
  apply (Bounding_and_Ambient_always_false sim.Kernel sim.Capget sim.self
           (sim.boot unix.LINUX_CAPABILITY_VERSION_3)
           (sim.instance unix.LINUX_CAPABILITY_VERSION_3) None
           [capabilities.CallisSetFor 1 40 capabilities.Effective]
           (sim.boot unix.LINUX_CAPABILITY_VERSION_3)
           (sim.boot unix.LINUX_CAPABILITY_VERSION_3)
           1 40 capabilities.Bounding eq_refl (or_introl eq_refl)).
Defined.

Lemma invalid_Version_refused_without_syscall_witness :
  (capabilities.Version capabilities.zero < 1 \/
   capabilities.Version capabilities.zero > 3) /\
  capabilities.call sim.Kernel sim.Capget sim.self
    (sim.boot unix.LINUX_CAPABILITY_VERSION_3) capabilities.zero
    (capabilities.CallIsSet 1 12 capabilities.Effective)
    = (sim.boot unix.LINUX_CAPABILITY_VERSION_3, capabilities.zero,
       (false, Some (capabilities.errors_New "invalid capability version"))).
Proof.
  assert (H : capabilities.Version capabilities.zero < 1 \/
              capabilities.Version capabilities.zero > 3)
    by (left; reflexivity).
  split; [ exact H | ].
  apply (invalid_Version_refused_without_syscall sim.Kernel sim.Capget
           sim.self (sim.boot unix.LINUX_CAPABILITY_VERSION_3)
           capabilities.zero
           (capabilities.CallIsSet 1 12 capabilities.Effective) H).
Defined.

Lemma query_is_one_syscall_witness :
  1 <= capabilities.Version (sim.instance unix.LINUX_CAPABILITY_VERSION_2)
    <= 3 /\
  sim.seen
    (fst (fst (capabilities.isSetFor sim.Kernel sim.Capget
                 (sim.boot unix.LINUX_CAPABILITY_VERSION_2)
                 (sim.instance unix.LINUX_CAPABILITY_VERSION_2)
                 1 12 7)))
    = [unix.mkHeader unix.LINUX_CAPABILITY_VERSION_2 1].
Proof.
  assert (H : 1 <= capabilities.Version
                     (sim.instance unix.LINUX_CAPABILITY_VERSION_2) <= 3)
    by (split; discriminate).
  split; [ exact H | ].
  rewrite (query_is_one_syscall sim.Kernel sim.Capget
             (sim.boot unix.LINUX_CAPABILITY_VERSION_2)
             (sim.instance unix.LINUX_CAPABILITY_VERSION_2) 1 12 7 H).
  reflexivity.
Defined.

Lemma pid_truncated_to_int32_witness :
  - 2 ^ 31 <= 1 < 2 ^ 31 /\
  unix.Pid
    (capabilities.v3_header
       (sim.instance unix.LINUX_CAPABILITY_VERSION_3) 1) = 1 /\
  capabilities.isSetFor sim.Kernel sim.Capget
    (sim.boot unix.LINUX_CAPABILITY_VERSION_3)
    (sim.instance unix.LINUX_CAPABILITY_VERSION_3)
    (1 + 1 * 2 ^ 32) 12 capabilities.Effective
  = capabilities.isSetFor sim.Kernel sim.Capget
      (sim.boot unix.LINUX_CAPABILITY_VERSION_3)
      (sim.instance unix.LINUX_CAPABILITY_VERSION_3)
      1 12 capabilities.Effective.
Proof.
  assert (H : - 2 ^ 31 <= 1 < 2 ^ 31) by (split; [ discriminate | reflexivity ]).
  split; [ exact H | ].
  destruct (pid_truncated_to_int32 sim.Kernel sim.Capget
              (sim.boot unix.LINUX_CAPABILITY_VERSION_3)
              (sim.instance unix.LINUX_CAPABILITY_VERSION_3)
              1 12 capabilities.Effective) as [Hwrap Hfit].
  split; [ exact (proj2 (Hfit H)) | exact (Hwrap 1) ].
Defined.

Lemma nil_error_iff_witness :
  snd (snd (capabilities.isSetFor sim.Kernel sim.Capget
              (sim.boot unix.LINUX_CAPABILITY_VERSION_1)
              (sim.instance unix.LINUX_CAPABILITY_VERSION_1)
              sim.self 12 capabilities.Permitted))
    = None.
Proof.
  apply (proj2 (nil_error_iff sim.Kernel sim.Capget
                  (sim.boot unix.LINUX_CAPABILITY_VERSION_1)
                  (sim.instance unix.LINUX_CAPABILITY_VERSION_1)
                  sim.self 12 capabilities.Permitted)).
  left. split; [ reflexivity | split; [ reflexivity | ] ].
  right. left. reflexivity.
Defined.

Lemma unknown_set_refused_after_syscall_witness :
  (capabilities.Version (sim.instance unix.LINUX_CAPABILITY_VERSION_3) = 2 \/
   capabilities.Version (sim.instance unix.LINUX_CAPABILITY_VERSION_3) = 3) /\
  (7 < 0 \/ 7 > 4) /\
  snd (capabilities.isSetFor sim.Kernel sim.Capget
         (sim.boot unix.LINUX_CAPABILITY_VERSION_3)
         (sim.instance unix.LINUX_CAPABILITY_VERSION_3) 1 12 7)
    = (false,
       Some (capabilities.errors_New
               "invalid capability set for capability v2 or v3")).
Proof.
  assert (HV : capabilities.Version
                 (sim.instance unix.LINUX_CAPABILITY_VERSION_3) = 2 \/
               capabilities.Version
                 (sim.instance unix.LINUX_CAPABILITY_VERSION_3) = 3)
    by (right; reflexivity).
  assert (Hs : 7 < 0 \/ 7 > 4) by (right; reflexivity).
  split; [ exact HV | split; [ exact Hs | ] ].
  rewrite (unknown_set_refused_after_syscall sim.Kernel sim.Capget
             (sim.boot unix.LINUX_CAPABILITY_VERSION_3)
             (sim.instance unix.LINUX_CAPABILITY_VERSION_3) 1 12 7 HV Hs).
  reflexivity.
Defined.

Lemma query_writes_its_layout_only_witness :
  capabilities.Version (sim.instance unix.LINUX_CAPABILITY_VERSION_1) = 1 /\
  capabilities.v3
    (snd (fst (capabilities.isSetFor sim.Kernel sim.Capget
                 (sim.boot unix.LINUX_CAPABILITY_VERSION_1)
                 (sim.instance unix.LINUX_CAPABILITY_VERSION_1)
                 1 12 capabilities.Effective)))
    = capabilities.v3 (sim.instance unix.LINUX_CAPABILITY_VERSION_1).
Proof.
  split; [ reflexivity | ].
  apply (proj1 (query_writes_its_layout_only sim.Kernel sim.Capget
                  (sim.boot unix.LINUX_CAPABILITY_VERSION_1)
                  (sim.instance unix.LINUX_CAPABILITY_VERSION_1)
                  1 12 capabilities.Effective)).
  reflexivity.
Defined.

Lemma V3_query_reads_the_reply_witness :
  0 <= 40 <= 63 /\
  snd (capabilities.isSetFor sim.Kernel sim.Capget
         (sim.boot unix.LINUX_CAPABILITY_VERSION_3)
         (sim.instance unix.LINUX_CAPABILITY_VERSION_3)
         1 40 capabilities.Permitted)
    = (true, None).
Proof.
  assert (Hn : 0 <= 40 <= 63) by (split; discriminate).
  split; [ exact Hn | ].
  destruct (V3_query_reads_the_reply sim.Kernel sim.Capget
              (sim.boot unix.LINUX_CAPABILITY_VERSION_3)
              (sim.instance unix.LINUX_CAPABILITY_VERSION_3) 1 40
              (unix.mkData 0x1001 0x1001 0) (unix.mkData 0x100 0x100 0) []
              (or_intror eq_refl) eq_refl eq_refl Hn) as (_ & Hp & _).
  rewrite Hp. reflexivity.
Defined.

Lemma V1_query_reads_the_reply_witness :
  0 <= 12 <= 31 /\
  snd (capabilities.isSetFor sim.Kernel sim.Capget
         (sim.boot unix.LINUX_CAPABILITY_VERSION_1)
         (sim.instance unix.LINUX_CAPABILITY_VERSION_1)
         1 12 capabilities.Effective)
    = (true, None).
Proof.
  assert (Hn : 0 <= 12 <= 31) by (split; discriminate).
  split; [ exact Hn | ].
  destruct (V1_query_reads_the_reply sim.Kernel sim.Capget
              (sim.boot unix.LINUX_CAPABILITY_VERSION_1)
              (sim.instance unix.LINUX_CAPABILITY_VERSION_1) 1 12
              (unix.mkData 0x1001 0x1001 0) []
              eq_refl eq_refl eq_refl Hn) as (He & _).
  rewrite He. reflexivity.
Defined.
